(** * The HTTP notifier of cloud-build-notifiers (http/main.go)

    A shallow embedding of [httpNotifier], [SetUp] and [SendNotification],
    and the properties of the notification pipeline: filtering, binding
    resolution, URL annotation, rendering, delivery and its failure
    semantics.

    The notifier is a Go struct mutated through a pointer receiver, the
    build event is a [*cbpb.Build] shared with the caller, and the run of a
    method is observable through the calls it makes to its collaborators.
    All three are explicit here: a [World] holds the notifier, the heap of
    builds and the chronological list of effects, and the methods are
    computations in a state-and-failure monad over it. *)

From Stdlib Require Import ZArith NArith Ascii String.
From stdpp Require Import base option list strings gmap.

Local Open Scope string_scope.

(** ** Data model *)

(** [cbpb.Build_Status], the enumeration of the build API. *)
Inductive Build_Status :=
| STATUS_UNKNOWN | QUEUED | WORKING | SUCCESS | FAILURE
| INTERNAL_ERROR | TIMEOUT | CANCELLED | EXPIRED.

(** [cbpb.Build]: the fields the notifier reads or writes ([Id], [Status],
    [LogUrl]) and one it never touches ([ProjectId]), which stands for the
    rest of the message. *)
Record Build := mkBuild {
  Id : string;
  ProjectId : string;
  Status : Build_Status;
  LogUrl : string
}.

(** [build.LogUrl = u] *)
Definition set_LogUrl (b : Build) (u : string) : Build :=
  {| Id := Id b; ProjectId := ProjectId b; Status := Status b; LogUrl := u |}.

(** A [*cbpb.Build] is an address in the heap of builds. *)
Definition loc := positive.

(** The values of the delivery map, a Go [map[string]interface{}]. *)
Inductive Value :=
| VString (s : string)
| VInt (z : Z)
| VBool (b : bool)
| VNil.

(** Go errors. [fmt.Errorf] is kept symbolic: its format and arguments. *)
Inductive FmtArg :=
| AStr (s : string)
| AInt (z : Z)
| AStatus (st : Build_Status)
| AErr (e : error)
| ADelivery (d : gmap string Value)
with error :=
| errors_New (msg : string)
| fmt_Errorf (format : string) (args : list FmtArg).

(** [notifiers.Config], with the two fields [SetUp] reads. *)
Record Notification := mkNotification {
  Filter : string;
  Delivery : gmap string Value
}.
Record NotifierSpec := mkSpec { Notification_ : Notification }.
Record Config := mkConfig { Spec : NotifierSpec }.

(** [notifiers.BuildView] and [notifiers.TemplateView]: the view holds the
    POINTER to the build, not a copy of it. *)
Record BuildView := mkBuildView { bv_Build : loc }.
Record TemplateView := mkTemplateView {
  tv_Build : BuildView;
  tv_Params : gmap string string
}.

(** What template execution sees when it follows the pointers of a view. *)
Record ViewData := mkViewData {
  vd_Build : Build;
  vd_Params : gmap string string
}.

(** [http.Header], [http.Request] and [http.Response]. *)
Record Request := mkRequest {
  Method : string;
  URL : string;
  Header : gmap string (list string);
  Body : string
}.

Record Response := mkResponse {
  resp_Status : string;
  StatusCode : Z
}.

(** [Header.Set]: the keys used by the notifier are already canonical. *)
Definition Header_Set (req : Request) (key value : string) : Request :=
  {| Method := Method req; URL := URL req;
     Header := <[key := [value]]> (Header req); Body := Body req |}.

Definition http_MethodPost : string := "POST".
Definition http_StatusOK : Z := 200.

(** ** Collaborators

    The notifier is written against interfaces ([notifiers.EventFilter],
    [notifiers.BindingResolver]) and library functions (lib/notifiers,
    text/template, encoding/json, net/url, net/http) that are not part of
    http/main.go. They are the operations of this class; the methods of an
    interface take the interface value first. Collaborators read the build
    they are handed and do not write to it. *)
Class Deps := {
  context_Context : Type;
  SecretGetter : Type;
  EventFilter : Type;
  Apply : EventFilter -> context_Context -> Build -> bool;
  BindingResolver : Type;
  Resolve : BindingResolver -> context_Context -> option (gmap string string) ->
            Build -> gmap string string + error;
  MakeCELPredicate : string -> EventFilter + error;
  UTMMedium : Type;
  HTTPMedium : UTMMedium;
  AddUTMParams : string -> UTMMedium -> string + error;
  Template : Type;
  (** [template.New(name).Parse(text)] *)
  template_Parse : string -> string -> Template + error;
  (** [t.Execute(&buf, view)]: the bytes written to [buf], or the error. *)
  template_Execute : Template -> ViewData -> string + error;
  (** [json.NewEncoder(payload).Encode(buf)] for a [bytes.Buffer] with the
      given contents: the bytes written to [payload], or the error. *)
  json_Encode_Buffer : string -> string + error;
  (** [url.Parse]: [None] when the string parses. *)
  url_Parse : string -> option error;
  (** [http.DefaultClient.Do(req)] for a request carrying the context. *)
  http_Do : context_Context -> Request -> Response + error
}.

(** ** Effects and results *)

Inductive LogLevel :=
| Info
| InfoV (v : nat)
| Warning.

(** The observable steps of a run, in the order they happen. *)
Inductive Effect :=
| Logged (lvl : LogLevel) (format : string) (args : list FmtArg)
| ResolveCalled (additional : option (gmap string string)) (b : Build)
| AddUTMParamsCalled (raw : string)
| ExecuteCalled (data : ViewData)
| EncodeCalled (buf : string)
| DoCalled (req : Request)
| BodyClosed.

(** A method returns a value, returns a Go error, or panics (a nil
    dereference). For a method of result type [error], [Returned tt] is
    the nil error. *)
Inductive Res (A : Type) :=
| Returned (a : A)
| Failed (e : error)
| Panicked.
Arguments Returned {A} a.
Arguments Failed {A} e.
Arguments Panicked {A}.

Section Notifier.
Context `{D : Deps}.

(** [http.NewRequestWithContext]: fails when the URL does not parse; the
    request starts with an empty header. *)
Definition http_NewRequestWithContext
    (ctx : context_Context) (method url body : string) : Request + error :=
  match url_Parse url with
  | Some e => inr e
  | None => inl {| Method := method; URL := url; Header := ∅; Body := body |}
  end.

(** ** The notifier and the world it runs in *)

(** [type httpNotifier struct]: interface and pointer fields are [None]
    while nil. *)
Record httpNotifier := mkNotifier {
  h_filter : option EventFilter;
  h_tmpl : option Template;
  h_url : string;
  h_br : option BindingResolver;
  h_tmplView : option TemplateView
}.

(** [new(httpNotifier)] *)
Definition new_httpNotifier : httpNotifier :=
  {| h_filter := None; h_tmpl := None; h_url := EmptyString; h_br := None;
     h_tmplView := None |}.

Record World := mkWorld {
  notifier : httpNotifier;
  builds : gmap loc Build;
  effects : list Effect
}.

Definition with_notifier (w : World) (h : httpNotifier) : World :=
  {| notifier := h; builds := builds w; effects := effects w |}.
Definition with_builds (w : World) (bs : gmap loc Build) : World :=
  {| notifier := notifier w; builds := bs; effects := effects w |}.
Definition with_effect (w : World) (e : Effect) : World :=
  {| notifier := notifier w; builds := builds w; effects := effects w ++ [e] |}.

(** ** The monad of methods

    A method runs in a world and leaves a world behind, whatever its
    result. *)
Definition Exec (A : Type) : Type := World -> Res A * World.

#[local] Instance Exec_ret : MRet Exec := fun A a w => (Returned a, w).
#[local] Instance Exec_bind : MBind Exec := fun A B k m w =>
  match m w with
  | (Returned a, w') => k a w'
  | (Failed e, w') => (Failed e, w')
  | (Panicked, w') => (Panicked, w')
  end.

(** [return err] *)
Definition fail {A} (e : error) : Exec A := fun w => (Failed e, w).
Definition panic {A} : Exec A := fun w => (Panicked, w).
Definition emit (e : Effect) : Exec unit := fun w => (Returned tt, with_effect w e).
Definition get_notifier : Exec httpNotifier := fun w => (Returned (notifier w), w).
Definition put_notifier (h : httpNotifier) : Exec unit :=
  fun w => (Returned tt, with_notifier w h).

(** Use of a field that may be nil. *)
Definition nonnil {A} (o : option A) : Exec A :=
  match o with
  | Some a => mret a
  | None => panic
  end.

(** [*build]: a pointer to no build panics. *)
Definition load (build : loc) : Exec Build :=
  fun w => match builds w !! build with
           | Some b => (Returned b, w)
           | None => (Panicked, w)
           end.

(** [build.LogUrl = u] *)
Definition store_LogUrl (build : loc) (u : string) : Exec unit :=
  fun w => match builds w !! build with
           | Some b => (Returned tt, with_builds w (<[build := set_LogUrl b u]> (builds w)))
           | None => (Panicked, w)
           end.

(** [x, err := f(...); if err != nil { return wrap(err) }] *)
Definition try {A} (r : A + error) (wrap : error -> error) : Exec A :=
  match r with
  | inl a => mret a
  | inr e => fail (wrap e)
  end.

(** [fmt.Errorf(format, err)] *)
Definition wrapf (format : string) (e : error) : error :=
  fmt_Errorf format [AErr e].

(** Field assignments [h.f = v]. *)
Definition set_filter (v : EventFilter) : Exec unit :=
  h ← get_notifier;
  put_notifier {| h_filter := Some v; h_tmpl := h_tmpl h; h_url := h_url h;
                  h_br := h_br h; h_tmplView := h_tmplView h |}.
Definition set_br (v : BindingResolver) : Exec unit :=
  h ← get_notifier;
  put_notifier {| h_filter := h_filter h; h_tmpl := h_tmpl h; h_url := h_url h;
                  h_br := Some v; h_tmplView := h_tmplView h |}.
Definition set_url (v : string) : Exec unit :=
  h ← get_notifier;
  put_notifier {| h_filter := h_filter h; h_tmpl := h_tmpl h; h_url := v;
                  h_br := h_br h; h_tmplView := h_tmplView h |}.
Definition set_tmpl (v : Template) : Exec unit :=
  h ← get_notifier;
  put_notifier {| h_filter := h_filter h; h_tmpl := Some v; h_url := h_url h;
                  h_br := h_br h; h_tmplView := h_tmplView h |}.
Definition set_tmplView (v : TemplateView) : Exec unit :=
  h ← get_notifier;
  put_notifier {| h_filter := h_filter h; h_tmpl := h_tmpl h; h_url := h_url h;
                  h_br := h_br h; h_tmplView := Some v |}.

(** [cfg.Spec.Notification.Delivery["url"].(string)] with the comma-ok
    form: a missing key and a value of another type both give [ok = false]
    and the zero string. *)
Definition delivery_url (cfg : Config) : string * bool :=
  match Delivery (Notification_ (Spec cfg)) !! "url" with
  | Some (VString s) => (s, true)
  | _ => (EmptyString, false)
  end.

(** ** SetUp (main.go, lines 45-65) *)
Definition SetUp (_ : context_Context) (cfg : Config) (httpTemplate : string)
    (_ : SecretGetter) (br : BindingResolver) : Exec unit :=
  prd ← try (MakeCELPredicate (Filter (Notification_ (Spec cfg))))
            (wrapf "failed to create CELPredicate: %w");
  set_filter prd;;
  set_br br;;
  let '(url, ok) := delivery_url cfg in
  if negb ok then
    fail (fmt_Errorf "expected delivery config %v to have string field `url`"
                     [ADelivery (Delivery (Notification_ (Spec cfg)))])
  else
    set_url url;;
    tmpl ← try (template_Parse "http_template" httpTemplate)
               (wrapf "failed to parse template: %v");
    set_tmpl tmpl;;
    mret tt.

(** Following the pointers of the view at the time of the call. *)
Definition deref_view (tv : TemplateView) : Exec ViewData :=
  b ← load (bv_Build (tv_Build tv));
  mret {| vd_Build := b; vd_Params := tv_Params tv |}.

(** ** SendNotification (main.go, lines 67-117) *)
Definition SendNotification (ctx : context_Context) (build : loc) : Exec unit :=
  h ← get_notifier;
  flt ← nonnil (h_filter h);
  b ← load build;
  if negb (Apply flt ctx b) then
    emit (Logged (InfoV 2)
            "not sending HTTP request for event (build id = %s, status = %v)"
            [AStr (Id b); AStatus (Status b)]);;
    mret tt
  else
    emit (Logged Info
            "sending HTTP request for event (build id = %s, status = %s)"
            [AStr (Id b); AStatus (Status b)]);;
    r ← nonnil (h_br h);
    emit (ResolveCalled None b);;
    bindings ← try (Resolve r ctx None b) (wrapf "failed to resolve bindings: %w");
    set_tmplView {| tv_Build := {| bv_Build := build |}; tv_Params := bindings |};;

    emit (AddUTMParamsCalled (LogUrl b));;
    logURL ← try (AddUTMParams (LogUrl b) HTTPMedium)
                 (wrapf "failed to add UTM params: %w");
    store_LogUrl build logURL;;

    h ← get_notifier;
    t ← nonnil (h_tmpl h);
    tv ← nonnil (h_tmplView h);
    data ← deref_view tv;
    emit (ExecuteCalled data);;
    buf ← try (template_Execute t data) id;
    emit (EncodeCalled buf);;
    payload ← try (json_Encode_Buffer buf) (wrapf "failed to encode payload: %w");
    req ← try (http_NewRequestWithContext ctx http_MethodPost (h_url h) buf)
              (wrapf "failed to create a new HTTP request: %w");
    let req := Header_Set req "Content-Type" "application/json" in
    let req := Header_Set req "User-Agent" "GCB-Notifier/0.1 (http)" in
    emit (DoCalled req);;
    resp ← try (http_Do ctx req) (wrapf "failed to make HTTP request: %w");
    (if negb (StatusCode resp =? http_StatusOK)%Z then
       emit (Logged Warning "got a non-OK response status %q (%d) from %q"
               [AStr (resp_Status resp); AInt (StatusCode resp); AStr (h_url h)])
     else mret tt);;
    emit (Logged (InfoV 2) "send HTTP request successfully" []);;
    emit BodyClosed;;
    mret tt.

End Notifier.

(** ** Observations on the effects of a run *)

Section Observations.
Context `{D : Deps}.

(** The HTTP requests handed to the client, the template executions and
    the binding resolutions among a list of effects. *)
Definition requests (es : list Effect) : list Request :=
  omap (fun e => match e with DoCalled req => Some req | _ => None end) es.
Definition renderings (es : list Effect) : list ViewData :=
  omap (fun e => match e with ExecuteCalled d => Some d | _ => None end) es.
Definition resolutions (es : list Effect) : list Build :=
  omap (fun e => match e with ResolveCalled _ b => Some b | _ => None end) es.

(** What a run from [w] to [w'] added to the list of effects. *)
Definition emitted (w w' : World) : list Effect :=
  drop (length (effects w)) (effects w').

(** The request the notifier builds for a destination and a body: a POST
    with the two headers of lines 103 and 104. *)
Definition notification_request (url body : string) : Request :=
  Header_Set
    (Header_Set {| Method := http_MethodPost; URL := url; Header := ∅; Body := body |}
       "Content-Type" "application/json")
    "User-Agent" "GCB-Notifier/0.1 (http)".

(** The states of the orchestrator: a notifier is ready once its filter,
    its binding resolver and its template are all set, which is what a
    successful [SetUp] establishes. *)
Definition Ready (h : httpNotifier) : Prop :=
  is_Some (h_filter h) /\ is_Some (h_br h) /\ is_Some (h_tmpl h).
Definition Uninitialized (h : httpNotifier) : Prop := ~ Ready h.

End Observations.

(** ** The JSON string scalar of the specification

    The specification describes the body of the POST as "the JSON-encoded
    string form of the rendered template": the text between double quotes,
    with quotes, backslashes and control characters escaped. This
    definition follows those words; it is what the code is compared with,
    not part of the code. *)
Definition hex_digit (n : N) : ascii :=
  ascii_of_N (if (n <? 10)%N then 48 + n else 87 + n).

Definition JSON_quote : string := String (ascii_of_N 34) EmptyString.
Definition JSON_backslash : string := String (ascii_of_N 92) EmptyString.

Definition JSON_escape_char (c : ascii) : string :=
  let n := N_of_ascii c in
  if (n =? 34)%N then JSON_backslash +:+ JSON_quote
  else if (n =? 92)%N then JSON_backslash +:+ JSON_backslash
  else if (n <? 32)%N then
    JSON_backslash +:+ "u00"
      +:+ String (hex_digit (n / 16)) (String (hex_digit (n mod 16)) EmptyString)
  else String c EmptyString.

Fixpoint JSON_escape (s : string) : string :=
  match s with
  | EmptyString => EmptyString
  | String c rest => JSON_escape_char c +:+ JSON_escape rest
  end.

Definition JSON_string (s : string) : string :=
  JSON_quote +:+ JSON_escape s +:+ JSON_quote.

(** ** What the specification says of lib/notifiers *)

(** Modelled from the spec: [notifiers.MakeCELPredicate] is defined in
    lib/notifiers, which is not among the sources. Section 4.1: "Compile
    fails with a FilterCompileError if the expression is not well-formed or
    references unknown fields". [accepted] decides the expressions that are
    well-formed and reference known fields only. *)
Definition MakeCELPredicate_rejects `{D : Deps} (accepted : string -> bool) : Prop :=
  forall expr, accepted expr = false -> exists e, MakeCELPredicate expr = inr e.

(** Modelled from the spec: [notifiers.AddUTMParams] is defined in
    lib/notifiers, which is not among the sources. Section 4.2: "fails with
    URLMalformedError if the input is not parseable as a URL". A string is
    parseable when [url_Parse] accepts it. *)
Definition AddUTMParams_rejects `{D : Deps} : Prop :=
  forall raw medium, url_Parse raw <> None -> exists e, AddUTMParams raw medium = inr e.

(** ** A concrete deployment

    Stand-ins for the collaborators, small enough to run: they give the
    scenarios of the specification something to execute and show that the
    hypotheses of the theorems below can be met. The theorems themselves
    hold for every implementation of [Deps]. *)
Module Scenario.

(** A fragment of text/template: literal text and field chains such as
    [{{.Build.Id}}]. *)
Inductive Node :=
| TextNode (text : string)
| FieldNode (path : list string).

Definition snoc (s : string) (c : ascii) : string := s +:+ String c EmptyString.

Definition text_node (cur : string) : list Node :=
  match cur with
  | EmptyString => []
  | _ => [TextNode cur]
  end.

(** Splitting [.A.B] into [A; B]; [None] for anything else. *)
Fixpoint split_fields (s : string) (cur : string) : option (list string) :=
  match s with
  | EmptyString =>
      match cur with
      | EmptyString => None
      | _ => Some [cur]
      end
  | String c rest =>
      if Ascii.eqb c "." then
        match cur with
        | EmptyString => None
        | _ => (cons cur) <$> split_fields rest EmptyString
        end
      else if Ascii.eqb c " " then None
      else split_fields rest (snoc cur c)
  end.

Definition parse_action (s : string) : option (list string) :=
  match s with
  | String c rest => if Ascii.eqb c "." then split_fields rest EmptyString else None
  | EmptyString => None
  end.

Fixpoint lex (s : string) (in_action : bool) (cur : string) : list Node + error :=
  match s with
  | EmptyString =>
      if in_action then inr (errors_New "template: http_template: unclosed action")
      else inl (text_node cur)
  | String c rest =>
      match rest with
      | String c' rest' =>
          if negb in_action && Ascii.eqb c "{" && Ascii.eqb c' "{" then
            match lex rest' true EmptyString with
            | inl nodes => inl (text_node cur ++ nodes)%list
            | inr e => inr e
            end
          else if in_action && Ascii.eqb c "}" && Ascii.eqb c' "}" then
            match parse_action cur with
            | None => inr (errors_New "template: http_template: unsupported action")
            | Some path =>
                match lex rest' false EmptyString with
                | inl nodes => inl (FieldNode path :: nodes)
                | inr e => inr e
                end
            end
          else lex rest in_action (snoc cur c)
      | EmptyString => lex rest in_action (snoc cur c)
      end
  end.

Definition Parse (name text : string) : list Node + error := lex text false EmptyString.

(** [Build_Status.String()] *)
Definition Status_String (st : Build_Status) : string :=
  match st with
  | STATUS_UNKNOWN => "STATUS_UNKNOWN"
  | QUEUED => "QUEUED"
  | WORKING => "WORKING"
  | SUCCESS => "SUCCESS"
  | FAILURE => "FAILURE"
  | INTERNAL_ERROR => "INTERNAL_ERROR"
  | TIMEOUT => "TIMEOUT"
  | CANCELLED => "CANCELLED"
  | EXPIRED => "EXPIRED"
  end.

Definition eval_field (path : list string) (data : ViewData) : string + error :=
  match path with
  | ["Build"; f] =>
      if String.eqb f "Id" then inl (Id (vd_Build data))
      else if String.eqb f "ProjectId" then inl (ProjectId (vd_Build data))
      else if String.eqb f "Status" then inl (Status_String (Status (vd_Build data)))
      else if String.eqb f "LogUrl" then inl (LogUrl (vd_Build data))
      else inr (errors_New "template: http_template: can't evaluate field")
  | ["Params"; k] => inl (default "<no value>" (vd_Params data !! k))
  | _ => inr (errors_New "template: http_template: can't evaluate field")
  end.

Fixpoint Execute (nodes : list Node) (data : ViewData) : string + error :=
  match nodes with
  | [] => inl EmptyString
  | TextNode text :: rest =>
      match Execute rest data with
      | inl out => inl (text +:+ out)
      | inr e => inr e
      end
  | FieldNode path :: rest =>
      match eval_field path data with
      | inr e => inr e
      | inl v =>
          match Execute rest data with
          | inl out => inl (v +:+ out)
          | inr e => inr e
          end
      end
  end.

(** A fragment of the filter language: the two status tests of the
    specification's scenarios. Every other expression is rejected. *)
Definition accepted (expr : string) : bool :=
  String.eqb expr "build.status == Build.Status.SUCCESS"
  || String.eqb expr "build.status == Build.Status.FAILURE".

Definition status_is (st : Build_Status) (b : Build) : bool :=
  match st, Status b with
  | SUCCESS, SUCCESS | FAILURE, FAILURE => true
  | _, _ => false
  end.

Definition compile (expr : string) : (Build -> bool) + error :=
  if String.eqb expr "build.status == Build.Status.SUCCESS" then inl (status_is SUCCESS)
  else if String.eqb expr "build.status == Build.Status.FAILURE" then inl (status_is FAILURE)
  else inr (errors_New "undeclared reference").

(** URLs: rejected when they start with a colon (no scheme) or hold a
    control character. *)
Fixpoint has_control (s : string) : bool :=
  match s with
  | EmptyString => false
  | String c rest => (N_of_ascii c <? 32)%N || (N_of_ascii c =? 127)%N || has_control rest
  end.

Definition parse_url (s : string) : option error :=
  match s with
  | String c _ =>
      if Ascii.eqb c ":" then Some (errors_New "missing protocol scheme")
      else if has_control s then Some (errors_New "invalid control character in URL")
      else None
  | EmptyString => None
  end.

Fixpoint has_query (s : string) : bool :=
  match s with
  | EmptyString => false
  | String c rest => Ascii.eqb c "?" || has_query rest
  end.

Definition add_utm (raw : string) (medium : string) : string + error :=
  match parse_url raw with
  | Some e => inr (fmt_Errorf "failed to parse URL %q: %w" [AStr raw; AErr e])
  | None =>
      inl (raw +:+ (if has_query raw then "&" else "?")
               +:+ "utm_campaign=google-cloud-build-notifiers&utm_medium="
               +:+ medium +:+ "&utm_source=google-cloud-build")
  end.

(** The output of encoding/json for a struct without exported fields. *)
Definition encode_buffer (buf : string) : string + error :=
  inl ("{}" +:+ String (ascii_of_N 10) EmptyString).

(** The deployment: filters are closures, a binding resolver answers with
    what it was built with, and the destination is a function of the
    request. *)
#[local] Instance deps (server : Request -> Response + error) : Deps := {|
  context_Context := unit;
  SecretGetter := unit;
  EventFilter := Build -> bool;
  Apply := fun f _ b => f b;
  BindingResolver := gmap string string + error;
  Resolve := fun r _ _ _ => r;
  MakeCELPredicate := compile;
  UTMMedium := string;
  HTTPMedium := "http";
  AddUTMParams := add_utm;
  Template := list Node;
  template_Parse := Parse;
  template_Execute := Execute;
  json_Encode_Buffer := encode_buffer;
  url_Parse := parse_url;
  http_Do := fun _ req => server req
|}.

(** Destinations: one that answers 200, one that answers 500 and one that
    cannot be reached. *)
Definition ok_server (req : Request) : Response + error :=
  inl {| resp_Status := "200 OK"; StatusCode := 200 |}.
Definition failing_server (req : Request) : Response + error :=
  inl {| resp_Status := "500 Internal Server Error"; StatusCode := 500 |}.
Definition no_server (req : Request) : Response + error :=
  inr (errors_New "dial tcp: connection refused").

(** The event and the configuration of the specification's scenario. *)
Definition b1 : Build :=
  {| Id := "b-1"; ProjectId := "p"; Status := SUCCESS; LogUrl := "https://x/log" |}.

Definition config (flt : string) (delivery : gmap string Value) : Config :=
  {| Spec := {| Notification_ := {| Filter := flt; Delivery := delivery |} |} |}.

Definition to_hook : gmap string Value := {[ "url" := VString "https://hook.example/notify" ]}.

Definition success_filter : string := "build.status == Build.Status.SUCCESS".
Definition failure_filter : string := "build.status == Build.Status.FAILURE".
Definition succeeded_template : string := "Build {{.Build.Id}} succeeded".

Definition bad_build : Build :=
  {| Id := "b-2"; ProjectId := "p"; Status := SUCCESS; LogUrl := ":bad" |}.

Definition annotated : string :=
  "https://x/log?utm_campaign=google-cloud-build-notifiers&utm_medium=http&utm_source=google-cloud-build".

(** A notifier straight out of [new], with the given heap of builds, and
    the world its [SetUp] leaves. *)
Definition fresh (server : Request -> Response + error) (bs : gmap loc Build)
    : @World (deps server) :=
  {| notifier := new_httpNotifier; builds := bs; effects := [] |}.

Definition set_up (server : Request -> Response + error) (flt : string)
    (delivery : gmap string Value) (httpTemplate : string) (bs : gmap loc Build)
    : Res unit * @World (deps server) :=
  SetUp (D := deps server) tt (config flt delivery) httpTemplate tt (inl ∅)
        (fresh server bs).

(** The notifier of the specification's scenario, for a destination and a
    filter, holding one build at address 1. *)
Definition ready (server : Request -> Response + error) (flt : string) (b : Build)
    : @World (deps server) :=
  (set_up server flt to_hook succeeded_template {[ 1%positive := b ]}).2.

Definition notify (server : Request -> Response + error) (w : @World (deps server))
    : Res unit * @World (deps server) :=
  SendNotification (D := deps server) tt 1%positive w.

End Scenario.

(** ** Further observations *)

Section MoreObservations.
Context `{D : Deps}.

(** The arguments of the warnings logged, the URLs handed to
    [AddUTMParams], the buffers handed to the JSON encoder and the number
    of response bodies closed among a list of effects. *)
Definition warnings (es : list Effect) : list (list FmtArg) :=
  omap (fun e => match e with Logged Warning _ args => Some args | _ => None end) es.
Definition annotations (es : list Effect) : list string :=
  omap (fun e => match e with AddUTMParamsCalled raw => Some raw | _ => None end) es.
Definition encodings (es : list Effect) : list string :=
  omap (fun e => match e with EncodeCalled buf => Some buf | _ => None end) es.
Definition closes (es : list Effect) : nat :=
  length (omap (fun e => match e with BodyClosed => Some tt | _ => None end) es).

(** The responses the client gives to a list of requests; a transport
    failure gives none. *)
Definition responses (ctx : context_Context) (reqs : list Request) : list Response :=
  omap (fun req => match http_Do ctx req with inl resp => Some resp | inr _ => None end) reqs.

(** The two headers of lines 103 and 104, and nothing else. *)
Definition notification_headers : gmap string (list string) :=
  <["User-Agent" := ["GCB-Notifier/0.1 (http)"]]>
    (<["Content-Type" := ["application/json"]]> ∅).

End MoreObservations.

(** ** Further deployments *)
Module Cases.

(** A destination that answers 204, a binding resolver that fails, and
    configurations and templates that go wrong at different steps. *)
Definition no_content_server (req : Request) : Response + error :=
  inl {| resp_Status := "204 No Content"; StatusCode := 204 |}.

Definition failing_resolver : gmap string string + error :=
  inr (errors_New "no such binding").

Definition to_port : gmap string Value := {[ "url" := VInt 8080 ]}.
Definition to_bad_hook : gmap string Value := {[ "url" := VString ":bad" ]}.

Definition unclosed_template : string := "Build {{.Build.Id".
Definition unknown_field_template : string := "Build {{.Build.Nope}}".

(** The world a [SetUp] leaves, for one build at address 1. *)
Definition set_up_with (server : Request -> Response + error) (flt : string)
    (delivery : gmap string Value) (httpTemplate : string)
    (r : gmap string string + error) (b : Build)
    : @World (Scenario.deps server) :=
  (SetUp (D := Scenario.deps server) tt (Scenario.config flt delivery) httpTemplate
         tt r (Scenario.fresh server {[ 1%positive := b ]})).2.

End Cases.

(** * Properties *)

(** ** The deployment at work *)

Example Parse_succeeded_template :
  Scenario.Parse "http_template" Scenario.succeeded_template
  = inl [Scenario.TextNode "Build "; Scenario.FieldNode ["Build"; "Id"];
         Scenario.TextNode " succeeded"].
Proof. reflexivity. Qed.

Example Parse_unclosed_action :
  Scenario.Parse "http_template" "Build {{.Build.Id"
  = inr (errors_New "template: http_template: unclosed action").
Proof. reflexivity. Qed.

Example Execute_unknown_field :
  Scenario.Execute [Scenario.FieldNode ["Build"; "Nope"]]
    {| vd_Build := Scenario.b1; vd_Params := ∅ |}
  = inr (errors_New "template: http_template: can't evaluate field").
Proof. reflexivity. Qed.

Example add_utm_log :
  Scenario.add_utm "https://x/log" "http" = inl Scenario.annotated.
Proof. reflexivity. Qed.

Example JSON_string_escapes :
  JSON_string ("a" +:+ JSON_quote +:+ JSON_backslash +:+ "b")
  = JSON_quote +:+ "a" +:+ JSON_backslash +:+ JSON_quote
      +:+ JSON_backslash +:+ JSON_backslash +:+ "b" +:+ JSON_quote.
Proof. reflexivity. Qed.

Example set_up_scenario :
  (Scenario.set_up Scenario.ok_server Scenario.success_filter Scenario.to_hook
     Scenario.succeeded_template ∅).1 = Returned tt.
Proof. vm_compute. reflexivity. Qed.

(** ** Tools *)

Lemma emitted_app `{D : Deps} (w w' : World) es :
  effects w' = (effects w ++ es)%list -> emitted w w' = es.
Proof. intros E. unfold emitted. rewrite E. apply drop_app_length. Qed.

Lemma emitted_refl `{D : Deps} (w w' : World) :
  effects w' = effects w -> emitted w w' = [].
Proof. intros E. apply emitted_app. rewrite E. symmetry. apply app_nil_r. Qed.

(** Stepping through a method in a hypothesis [E : m w = (r, w')]: unfold
    the monad, use what is known of the collaborators' answers, and split
    on what is not. The innermost test is decided first. *)
Ltac exec_unfold E :=
  unfold SendNotification, SetUp, deref_view, set_tmplView, set_filter,
    set_br, set_url, set_tmpl, emit, load, store_LogUrl, try, nonnil, fail,
    panic, get_notifier, put_notifier, http_NewRequestWithContext,
    mbind, mret, Exec_bind, Exec_ret in E;
  simpl in E.

Ltac exec_rew E :=
  repeat match goal with
  | H : ?x = _ |- _ =>
      tryif constr_eq H E then fail else
      tryif is_var x then fail else
      match type of E with context [x] => rewrite H in E; simpl in E end
  | _ => rewrite lookup_insert_eq in E; simpl in E
  end.

Ltac exec_cases E :=
  repeat match type of E with
  | context [match ?x with _ => _ end] =>
      lazymatch x with
      | context [match _ with _ => _ end] => fail
      | _ => destruct x eqn:?; simpl in E; exec_rew E
      end
  end.

Ltac exec_done E := inversion E; subst; clear E; simpl in *.

Ltac emitted_is es :=
  rewrite (emitted_app _ _ es) by (simpl; rewrite <- ?app_assoc; reflexivity).

(** Computing the effects of a run whose final world is known. *)
Ltac emitted_compute :=
  match goal with
  | |- context [emitted ?a ?b] =>
      let es := fresh "es" in
      evar (es : list Effect);
      rewrite (emitted_app a b es)
        by (subst es; simpl; rewrite <- ?app_assoc; simpl;
            first [reflexivity | symmetry; apply app_nil_r]);
      subst es; simpl
  end.

(** Every run only adds to the effects. *)
Lemma SendNotification_extends `{D : Deps} ctx build (w : World) :
  effects (SendNotification ctx build w).2 =
  (effects w ++ emitted w (SendNotification ctx build w).2)%list.
Proof.
  destruct (SendNotification ctx build w) as [r w'] eqn:E.
  exec_unfold E. exec_cases E; exec_done E.
  all: match goal with
       | |- ?l = (_ ++ emitted ?w ?w')%list =>
           let es := fresh "es" in
           evar (es : list Effect);
           assert (Hes : l = (effects w ++ es)%list)
             by (subst es; rewrite <- ?app_assoc; simpl;
                 first [reflexivity | symmetry; apply app_nil_r]);
           rewrite (emitted_app w w' es) by exact Hes; exact Hes
       end.
Qed.

(** ** Lengths of JSON strings *)

Lemma length_append (s1 s2 : string) :
  String.length (s1 +:+ s2) = String.length s1 + String.length s2.
Proof. induction s1 as [|c s1 IH]; simpl; [reflexivity | now rewrite IH]. Qed.

Lemma JSON_escape_char_length (c : ascii) : 1 <= String.length (JSON_escape_char c).
Proof.
  unfold JSON_escape_char.
  destruct (N_of_ascii c =? 34)%N; [simpl; lia|].
  destruct (N_of_ascii c =? 92)%N; [simpl; lia|].
  destruct (N_of_ascii c <? 32)%N; simpl; lia.
Qed.

Lemma JSON_escape_length (s : string) : String.length s <= String.length (JSON_escape s).
Proof.
  induction s as [|c s IH]; simpl; [lia|].
  rewrite length_append. pose proof (JSON_escape_char_length c). lia.
Qed.

Lemma JSON_string_length (s : string) :
  String.length s + 2 <= String.length (JSON_string s).
Proof.
  unfold JSON_string. rewrite !length_append. simpl.
  pose proof (JSON_escape_length s). lia.
Qed.

Lemma JSON_string_neq (s : string) : s <> JSON_string s.
Proof.
  intros E. pose proof (JSON_string_length s) as L. rewrite <- E in L. lia.
Qed.

(** ** The stand-ins meet what the specification says of lib/notifiers *)

Lemma Scenario_compile_rejects server :
  MakeCELPredicate_rejects (D := Scenario.deps server) Scenario.accepted.
Proof.
  intros expr H. unfold Scenario.accepted in H.
  apply orb_false_iff in H as [H1 H2].
  simpl. unfold Scenario.compile. rewrite H1, H2. eauto.
Qed.

Lemma Scenario_add_utm_rejects server :
  AddUTMParams_rejects (D := Scenario.deps server).
Proof.
  intros raw medium H. simpl in *. unfold Scenario.add_utm.
  destruct (Scenario.parse_url raw); [eauto | contradiction].
Qed.

(** ** Supporting facts on SetUp *)


(** [SetUp] never panics. *)
Lemma SetUp_no_panic `{D : Deps} ctx cfg httpTemplate sg br (w : World) :
  (SetUp ctx cfg httpTemplate sg br w).1 <> Panicked.
Proof.
  destruct (SetUp ctx cfg httpTemplate sg br w) as [r w'] eqn:E.
  exec_unfold E.
  destruct (delivery_url cfg) as [u ok] eqn:Eu.
  exec_cases E; exec_done E; discriminate.
Qed.

(** ** Supporting facts on SendNotification *)


(** ** Filtering *)

(** C3. When the compiled predicate is false on the event,
    [SendNotification] returns nil, the notifier and the event are left as
    they were, and the run issues no HTTP request, resolves no bindings and
    renders nothing. *)
Theorem SendNotification_filtered_out `{D : Deps}
    (ctx : context_Context) (build : loc) (w : World) flt b :
  h_filter (notifier w) = Some flt ->
  builds w !! build = Some b ->
  Apply flt ctx b = false ->
  exists w',
    SendNotification ctx build w = (Returned tt, w') /\
    notifier w' = notifier w /\ builds w' = builds w /\
    requests (emitted w w') = [] /\
    resolutions (emitted w w') = [] /\
    renderings (emitted w w') = [].
Proof.
  intros Hf Hb Ha.
  destruct (SendNotification ctx build w) as [r w'] eqn:E. exists w'.
  exec_unfold E. exec_rew E. exec_done E.
  emitted_is [Logged (InfoV 2)
                "not sending HTTP request for event (build id = %s, status = %v)"
                [AStr (Id b); AStatus (Status b)]].
  auto 10.
Qed.

(** The scenario of the specification: the SUCCESS event under the filter
    on FAILURE. *)
Lemma SendNotification_filtered_out_witness :
  exists w',
    Scenario.notify Scenario.ok_server
      (Scenario.ready Scenario.ok_server Scenario.failure_filter Scenario.b1)
    = (Returned tt, w') /\
    notifier w' =
      notifier (Scenario.ready Scenario.ok_server Scenario.failure_filter Scenario.b1) /\
    builds w' =
      builds (Scenario.ready Scenario.ok_server Scenario.failure_filter Scenario.b1) /\
    requests (emitted (Scenario.ready Scenario.ok_server Scenario.failure_filter Scenario.b1) w') = [] /\
    resolutions (emitted (Scenario.ready Scenario.ok_server Scenario.failure_filter Scenario.b1) w') = [] /\
    renderings (emitted (Scenario.ready Scenario.ok_server Scenario.failure_filter Scenario.b1) w') = [].
Proof.
  apply (SendNotification_filtered_out (D := Scenario.deps Scenario.ok_server)
           tt 1%positive _ (Scenario.status_is FAILURE) Scenario.b1);
    vm_compute; reflexivity.
Defined.

(** ** SetUp and its failures *)

(** C9. A filter expression that is not well-formed, or that references
    unknown fields, makes [SetUp] return an error: the compilation error,
    wrapped. The world is left as it was, so a notifier that was not ready
    is still not ready. *)
Theorem SetUp_rejects_bad_filter `{D : Deps} (accepted : string -> bool)
    ctx cfg httpTemplate sg br (w : World) :
  MakeCELPredicate_rejects accepted ->
  accepted (Filter (Notification_ (Spec cfg))) = false ->
  exists e,
    MakeCELPredicate (Filter (Notification_ (Spec cfg))) = inr e /\
    SetUp ctx cfg httpTemplate sg br w
      = (Failed (wrapf "failed to create CELPredicate: %w" e), w) /\
    (Uninitialized (notifier w) ->
     Uninitialized (notifier (SetUp ctx cfg httpTemplate sg br w).2)).
Proof.
  intros Hspec Hbad. destruct (Hspec _ Hbad) as [e He]. exists e.
  assert (E : SetUp ctx cfg httpTemplate sg br w
              = (Failed (wrapf "failed to create CELPredicate: %w" e), w)).
  { destruct (SetUp ctx cfg httpTemplate sg br w) as [r w'] eqn:E.
    exec_unfold E. rewrite He in E. simpl in E. now exec_done E. }
  rewrite E. auto.
Qed.

(** A filter on a field that builds do not have. *)
Lemma SetUp_rejects_bad_filter_witness :
  exists e,
    @MakeCELPredicate (Scenario.deps Scenario.ok_server) "build.nope == 1" = inr e /\
    Scenario.set_up Scenario.ok_server "build.nope == 1" Scenario.to_hook
      Scenario.succeeded_template ∅
      = (Failed (wrapf "failed to create CELPredicate: %w" e),
         Scenario.fresh Scenario.ok_server ∅) /\
    (Uninitialized (notifier (Scenario.fresh Scenario.ok_server ∅)) ->
     Uninitialized (notifier
       (Scenario.set_up Scenario.ok_server "build.nope == 1" Scenario.to_hook
          Scenario.succeeded_template ∅).2)).
Proof.
  apply (SetUp_rejects_bad_filter (D := Scenario.deps Scenario.ok_server)
           Scenario.accepted tt
           (Scenario.config "build.nope == 1" Scenario.to_hook)
           Scenario.succeeded_template tt (inl ∅)
           (Scenario.fresh Scenario.ok_server ∅)).
  - apply Scenario_compile_rejects.
  - vm_compute; reflexivity.
Defined.

(** C4, as the code has it. When [SetUp] returns an error the template
    field and the cached view are not written, nor are the builds or the
    effects, so a notifier without a template is still uninitialized. The
    other fields are written as far as [SetUp] got: nothing after a
    predicate compilation failure; the filter and the binding resolver
    when the delivery configuration has no string [url]; the filter, the
    binding resolver and the url when the template does not parse. *)
Theorem SetUp_failure_fields `{D : Deps}
    ctx cfg httpTemplate sg br (w w' : World) e :
  SetUp ctx cfg httpTemplate sg br w = (Failed e, w') ->
  h_tmpl (notifier w') = h_tmpl (notifier w) /\
  h_tmplView (notifier w') = h_tmplView (notifier w) /\
  builds w' = builds w /\ effects w' = effects w /\
  (h_tmpl (notifier w) = None -> Uninitialized (notifier w')) /\
  ((exists e0, MakeCELPredicate (Filter (Notification_ (Spec cfg))) = inr e0 /\
               e = wrapf "failed to create CELPredicate: %w" e0 /\
               notifier w' = notifier w)
   \/
   (exists prd, MakeCELPredicate (Filter (Notification_ (Spec cfg))) = inl prd /\
                (delivery_url cfg).2 = false /\
                h_filter (notifier w') = Some prd /\
                h_br (notifier w') = Some br /\
                h_url (notifier w') = h_url (notifier w))
   \/
   (exists prd url e0,
       MakeCELPredicate (Filter (Notification_ (Spec cfg))) = inl prd /\
       delivery_url cfg = (url, true) /\
       template_Parse "http_template" httpTemplate = inr e0 /\
       e = wrapf "failed to parse template: %v" e0 /\
       h_filter (notifier w') = Some prd /\
       h_br (notifier w') = Some br /\
       h_url (notifier w') = url)).
Proof.
  intros E. exec_unfold E.
  destruct (delivery_url cfg) as [u ok] eqn:Eu.
  assert (U : forall h : httpNotifier, h_tmpl h = None -> Uninitialized h).
  { intros h Hn [_ [_ [t Ht]]]. congruence. }
  exec_cases E; exec_done E; try discriminate.
  all: do 4 (split; [reflexivity|]); split; [intros Hn; apply U; exact Hn|].
  - right; left. exists e0. destruct ok; [discriminate | auto 10].
  - right; right. exists e0, u, e1. destruct ok; [auto 10 | discriminate].
  - left. exists e0. auto.
Qed.

(** A configuration without [url]: the filter compiles, the delivery
    lookup fails. *)
Lemma SetUp_failure_fields_witness :
  h_tmpl (notifier (Scenario.set_up Scenario.ok_server Scenario.success_filter ∅
                      Scenario.succeeded_template ∅).2) = None /\
  Uninitialized (notifier (Scenario.set_up Scenario.ok_server Scenario.success_filter ∅
                             Scenario.succeeded_template ∅).2).
Proof.
  destruct (SetUp_failure_fields (D := Scenario.deps Scenario.ok_server)
              tt (Scenario.config Scenario.success_filter ∅)
              Scenario.succeeded_template tt (inl ∅)
              (Scenario.fresh Scenario.ok_server ∅)
              (Scenario.set_up Scenario.ok_server Scenario.success_filter ∅
                 Scenario.succeeded_template ∅).2
              (fmt_Errorf "expected delivery config %v to have string field `url`"
                 [ADelivery ∅]))
    as (Ht & _ & _ & _ & Hu & _).
  - vm_compute; reflexivity.
  - split; [exact Ht | apply Hu; reflexivity].
Defined.

(** C4 fails as stated: with a filter that compiles and a delivery
    configuration without [url], [SetUp] returns an error and has already
    assigned the filter and the binding resolver of a fresh notifier. *)
Lemma SetUp_failure_not_atomic :
  exists e w',
    Scenario.set_up Scenario.ok_server Scenario.success_filter ∅
      Scenario.succeeded_template ∅ = (Failed e, w') /\
    h_filter (notifier w') <> h_filter (notifier (Scenario.fresh Scenario.ok_server ∅)) /\
    h_br (notifier w') <> h_br (notifier (Scenario.fresh Scenario.ok_server ∅)) /\
    notifier w' <> notifier (Scenario.fresh Scenario.ok_server ∅).
Proof.
  eexists. eexists. split; [vm_compute; reflexivity|].
  repeat split; [discriminate | discriminate |].
  intros H. apply (f_equal h_filter) in H. discriminate.
Qed.

(** ** What event handling writes *)




(** C6. The only thing [SendNotification] ever changes in the heap of
    builds is the [LogUrl] of the event it was given, which becomes the
    annotated URL; the other fields of the event, and every other build,
    are as they were when it returns, whatever it returns. *)
Theorem SendNotification_build_frame `{D : Deps}
    (ctx : context_Context) (build p : loc) (w : World) b :
  builds w !! build = Some b ->
  p <> build ->
  let w' := (SendNotification ctx build w).2 in
  (exists b',
     builds w' !! build = Some b' /\
     Id b' = Id b /\ ProjectId b' = ProjectId b /\ Status b' = Status b /\
     (LogUrl b' = LogUrl b \/
      AddUTMParams (LogUrl b) HTTPMedium = inl (LogUrl b'))) /\
  builds w' !! p = builds w !! p.
Proof.
  intros Hb Hp. simpl.
  destruct (SendNotification ctx build w) as [r w'] eqn:E.
  exec_unfold E. exec_cases E; exec_done E; try discriminate.
  all: rewrite ?lookup_insert_eq, ?lookup_insert_ne by congruence.
  all: split; [|reflexivity].
  all: first [ exists b; solve [auto 10]
             | eexists; split; [reflexivity|]; simpl; auto 10 ].
Qed.

(** The event of the scenario, delivered: its [LogUrl] is annotated, the
    rest is as before. *)
Lemma SendNotification_build_frame_witness :
  let w := Scenario.ready Scenario.ok_server Scenario.success_filter Scenario.b1 in
  let w' := (Scenario.notify Scenario.ok_server w).2 in
  (exists b',
     builds w' !! 1%positive = Some b' /\
     Id b' = "b-1" /\ ProjectId b' = "p" /\ Status b' = SUCCESS /\
     (LogUrl b' = "https://x/log" \/
      @AddUTMParams (Scenario.deps Scenario.ok_server) "https://x/log" "http"
        = inl (LogUrl b'))) /\
  builds w' !! 2%positive = builds w !! 2%positive.
Proof.
  apply (SendNotification_build_frame (D := Scenario.deps Scenario.ok_server)
           tt 1%positive 2%positive
           (Scenario.ready Scenario.ok_server Scenario.success_filter Scenario.b1)
           Scenario.b1).
  - vm_compute; reflexivity.
  - discriminate.
Defined.

(** ** Delivery *)

Lemma notification_request_Header (url body : string) :
  Header (notification_request url body) !! "Content-Type" = Some ["application/json"] /\
  Header (notification_request url body) !! "User-Agent" = Some ["GCB-Notifier/0.1 (http)"].
Proof.
  unfold notification_request, Header_Set; simpl. split.
  - rewrite lookup_insert_ne by discriminate. apply lookup_insert_eq.
  - apply lookup_insert_eq.
Qed.

(** C7. No run hands more than one request to the HTTP client. When the
    predicate is true and binding resolution, URL annotation, rendering,
    encoding, request creation and delivery all succeed, [SendNotification]
    returns nil and has issued exactly one request: a POST to the
    configured URL, with Content-Type application/json and the User-Agent
    of the notifier. *)
Theorem SendNotification_posts_once `{D : Deps}
    (ctx : context_Context) (build : loc) (w : World) :
  length (requests (emitted w (SendNotification ctx build w).2)) <= 1 /\
  forall flt b r bindings logURL t buf payload resp,
    h_filter (notifier w) = Some flt ->
    builds w !! build = Some b ->
    Apply flt ctx b = true ->
    h_br (notifier w) = Some r ->
    Resolve r ctx None b = inl bindings ->
    AddUTMParams (LogUrl b) HTTPMedium = inl logURL ->
    h_tmpl (notifier w) = Some t ->
    template_Execute t {| vd_Build := set_LogUrl b logURL; vd_Params := bindings |}
      = inl buf ->
    json_Encode_Buffer buf = inl payload ->
    url_Parse (h_url (notifier w)) = None ->
    http_Do ctx (notification_request (h_url (notifier w)) buf) = inl resp ->
    (SendNotification ctx build w).1 = Returned tt /\
    exists req,
      requests (emitted w (SendNotification ctx build w).2) = [req] /\
      Method req = "POST" /\
      URL req = h_url (notifier w) /\
      Header req !! "Content-Type" = Some ["application/json"] /\
      Header req !! "User-Agent" = Some ["GCB-Notifier/0.1 (http)"].
Proof.
  split.
  - destruct (SendNotification ctx build w) as [r w'] eqn:E.
    exec_unfold E. exec_cases E; exec_done E.
    all: emitted_compute; lia.
  - intros flt b r bindings logURL t buf payload resp
      Hf Hb Ha Hr Hres Hutm Ht Hex Hjs Hurl Hdo.
    fold (notification_request (h_url (notifier w)) buf) in *.
    destruct (SendNotification ctx build w) as [res w'] eqn:E.
    exec_unfold E. exec_rew E.
    fold (notification_request (h_url (notifier w)) buf) in E.
    exec_rew E.
    destruct (negb (StatusCode resp =? http_StatusOK)%Z); simpl in E; exec_done E.
    all: split; [reflexivity|].
    all: exists (notification_request (h_url (notifier w)) buf).
    all: emitted_compute.
    all: pose proof (notification_request_Header (h_url (notifier w)) buf) as [? ?].
    all: auto 10.
Qed.

(** The scenario of the specification, delivered to a destination that
    answers 200. *)
Lemma SendNotification_posts_once_witness :
  let w := Scenario.ready Scenario.ok_server Scenario.success_filter Scenario.b1 in
  (Scenario.notify Scenario.ok_server w).1 = Returned tt /\
  exists req,
    requests (emitted w (Scenario.notify Scenario.ok_server w).2) = [req] /\
    Method req = "POST" /\
    URL req = h_url (notifier w) /\
    Header req !! "Content-Type" = Some ["application/json"] /\
    Header req !! "User-Agent" = Some ["GCB-Notifier/0.1 (http)"].
Proof.
  apply (proj2 (SendNotification_posts_once (D := Scenario.deps Scenario.ok_server)
                  tt 1%positive
                  (Scenario.ready Scenario.ok_server Scenario.success_filter Scenario.b1)))
    with (flt := Scenario.status_is SUCCESS) (b := Scenario.b1) (r := inl ∅)
         (bindings := ∅) (logURL := Scenario.annotated)
         (t := [Scenario.TextNode "Build "; Scenario.FieldNode ["Build"; "Id"];
                Scenario.TextNode " succeeded"])
         (buf := "Build b-1 succeeded")
         (payload := "{}" +:+ String (ascii_of_N 10) EmptyString)
         (resp := {| resp_Status := "200 OK"; StatusCode := 200 |});
    vm_compute; reflexivity.
Defined.

(** C1, as the code has it. When the event passes the predicate, its
    bindings resolve, its URL is annotated and the template renders, the
    body of every request the run issues is the rendered text itself, byte
    for byte; that is never the JSON string of the text, which is at least
    two bytes longer. The request is issued as soon as encoding and request
    creation succeed. The JSON encoding the code computes (of the buffer,
    lines 95-98) goes to [payload], which is not what is sent. *)
Theorem SendNotification_body_is_rendering `{D : Deps}
    (ctx : context_Context) (build : loc) (w : World)
    flt b r bindings logURL t buf :
  h_filter (notifier w) = Some flt ->
  builds w !! build = Some b ->
  Apply flt ctx b = true ->
  h_br (notifier w) = Some r ->
  Resolve r ctx None b = inl bindings ->
  AddUTMParams (LogUrl b) HTTPMedium = inl logURL ->
  h_tmpl (notifier w) = Some t ->
  template_Execute t {| vd_Build := set_LogUrl b logURL; vd_Params := bindings |}
    = inl buf ->
  (forall req,
      req ∈ requests (emitted w (SendNotification ctx build w).2) ->
      Body req = buf /\ Body req <> JSON_string buf) /\
  (forall payload,
      json_Encode_Buffer buf = inl payload ->
      url_Parse (h_url (notifier w)) = None ->
      requests (emitted w (SendNotification ctx build w).2)
        = [notification_request (h_url (notifier w)) buf]).
Proof.
  intros Hf Hb Ha Hr Hres Hutm Ht Hex.
  destruct (SendNotification ctx build w) as [res w'] eqn:E.
  exec_unfold E. exec_rew E. exec_cases E; exec_done E.
  all: emitted_compute.
  all: split; [intros req Hin | intros payload Hp Hu; try discriminate; try reflexivity].
  all: try (apply elem_of_nil in Hin; contradiction).
  all: apply list_elem_of_singleton in Hin; subst req; simpl.
  all: split; [reflexivity | apply JSON_string_neq].
Qed.

(** The scenario of the specification: the body is the text [Build b-1
    succeeded], without quotes. *)
Lemma SendNotification_body_is_rendering_witness :
  let w := Scenario.ready Scenario.ok_server Scenario.success_filter Scenario.b1 in
  requests (emitted w (Scenario.notify Scenario.ok_server w).2)
    = [notification_request (h_url (notifier w)) "Build b-1 succeeded"].
Proof.
  apply (proj2 (SendNotification_body_is_rendering
                  (D := Scenario.deps Scenario.ok_server) tt 1%positive
                  (Scenario.ready Scenario.ok_server Scenario.success_filter Scenario.b1)
                  (Scenario.status_is SUCCESS) Scenario.b1 (inl ∅) ∅ Scenario.annotated
                  [Scenario.TextNode "Build "; Scenario.FieldNode ["Build"; "Id"];
                   Scenario.TextNode " succeeded"]
                  "Build b-1 succeeded"
                  ltac:(vm_compute; reflexivity) ltac:(vm_compute; reflexivity)
                  ltac:(vm_compute; reflexivity) ltac:(vm_compute; reflexivity)
                  ltac:(vm_compute; reflexivity) ltac:(vm_compute; reflexivity)
                  ltac:(vm_compute; reflexivity) ltac:(vm_compute; reflexivity)))
    with (payload := "{}" +:+ String (ascii_of_N 10) EmptyString);
    vm_compute; reflexivity.
Defined.

(** C1 fails as stated: in the scenario of the specification the run
    succeeds and the one body posted is [Build b-1 succeeded], while the
    JSON string of that text is the same text between double quotes. *)
Lemma SendNotification_body_not_JSON_string :
  let w := Scenario.ready Scenario.ok_server Scenario.success_filter Scenario.b1 in
  let run := Scenario.notify Scenario.ok_server w in
  run.1 = Returned tt /\
  Body <$> requests (emitted w run.2) = ["Build b-1 succeeded"] /\
  JSON_string "Build b-1 succeeded"
    = JSON_quote +:+ "Build b-1 succeeded" +:+ JSON_quote /\
  Body <$> requests (emitted w run.2) <> [JSON_string "Build b-1 succeeded"].
Proof.
  simpl. split; [vm_compute; reflexivity|].
  split; [vm_compute; reflexivity|].
  split; [vm_compute; reflexivity|].
  intros H. vm_compute in H. discriminate.
Qed.

(** C2. Once a request has been handed to the HTTP client, the answer of
    the client decides the result: any response, whatever its status code,
    makes [SendNotification] return nil, and only the failure to get a
    response makes it return an error, the transport error wrapped. *)
Theorem SendNotification_response_is_success `{D : Deps}
    (ctx : context_Context) (build : loc) (w : World) req :
  req ∈ requests (emitted w (SendNotification ctx build w).2) ->
  match http_Do ctx req with
  | inl resp => (SendNotification ctx build w).1 = Returned tt
  | inr e =>
      (SendNotification ctx build w).1
        = Failed (wrapf "failed to make HTTP request: %w" e)
  end.
Proof.
  destruct (SendNotification ctx build w) as [res w'] eqn:E.
  exec_unfold E. exec_cases E; exec_done E.
  all: emitted_compute; intros Hin.
  all: try (apply elem_of_nil in Hin; contradiction).
  all: apply list_elem_of_singleton in Hin; subst req.
  all: match goal with H : http_Do _ _ = _ |- _ => rewrite H end.
  all: reflexivity.
Qed.

(** A destination that answers 500: the run returns nil. *)
Lemma SendNotification_response_is_success_witness :
  let w := Scenario.ready Scenario.failing_server Scenario.success_filter Scenario.b1 in
  @http_Do (Scenario.deps Scenario.failing_server) tt
      (notification_request "https://hook.example/notify" "Build b-1 succeeded")
    = inl {| resp_Status := "500 Internal Server Error"; StatusCode := 500 |} /\
  (Scenario.notify Scenario.failing_server w).1 = Returned tt.
Proof.
  split; [reflexivity|].
  apply (SendNotification_response_is_success
           (D := Scenario.deps Scenario.failing_server) tt 1%positive
           (Scenario.ready Scenario.failing_server Scenario.success_filter Scenario.b1)
           (notification_request "https://hook.example/notify" "Build b-1 succeeded")).
  vm_compute. apply list_elem_of_here.
Defined.

(** ** URL annotation *)

(** C8, as the code has it. For an event that passes the predicate and
    whose reference URL is not parseable, [SendNotification] returns an
    error without rendering the template and without issuing any HTTP
    request, and leaves the event as it was. When the bindings resolve the
    error is the annotation failure, wrapped; otherwise it is the binding
    resolution failure, and annotation is not reached. *)
Theorem SendNotification_malformed_LogUrl `{D : Deps}
    (ctx : context_Context) (build : loc) (w : World) flt b r :
  AddUTMParams_rejects ->
  h_filter (notifier w) = Some flt ->
  builds w !! build = Some b ->
  Apply flt ctx b = true ->
  h_br (notifier w) = Some r ->
  url_Parse (LogUrl b) <> None ->
  exists e w',
    SendNotification ctx build w = (Failed e, w') /\
    renderings (emitted w w') = [] /\
    requests (emitted w w') = [] /\
    builds w' = builds w /\
    match Resolve r ctx None b with
    | inl _ =>
        exists e0, AddUTMParams (LogUrl b) HTTPMedium = inr e0 /\
                   e = wrapf "failed to add UTM params: %w" e0
    | inr e0 => e = wrapf "failed to resolve bindings: %w" e0
    end.
Proof.
  intros Hspec Hf Hb Ha Hr Hbad.
  destruct (Hspec (LogUrl b) HTTPMedium Hbad) as [e0 He0].
  destruct (SendNotification ctx build w) as [res w'] eqn:E.
  exec_unfold E. exec_rew E.
  destruct (Resolve r ctx None b) as [bindings|e1] eqn:Hres;
    simpl in E; exec_rew E; exec_done E.
  all: eexists; eexists; split; [reflexivity|].
  all: emitted_compute; repeat split; eauto.
Qed.

(** An event that passes the filter, with a reference URL that has no
    scheme. *)
Lemma SendNotification_malformed_LogUrl_witness :
  let w := Scenario.ready Scenario.ok_server Scenario.success_filter Scenario.bad_build in
  exists e w',
    Scenario.notify Scenario.ok_server w = (Failed e, w') /\
    renderings (emitted w w') = [] /\
    requests (emitted w w') = [] /\
    builds w' = builds w /\
    exists e0, @AddUTMParams (Scenario.deps Scenario.ok_server) ":bad" "http" = inr e0 /\
               e = wrapf "failed to add UTM params: %w" e0.
Proof.
  apply (SendNotification_malformed_LogUrl (D := Scenario.deps Scenario.ok_server)
           tt 1%positive
           (Scenario.ready Scenario.ok_server Scenario.success_filter Scenario.bad_build)
           (Scenario.status_is SUCCESS) Scenario.bad_build (inl ∅)).
  - apply Scenario_add_utm_rejects.
  - vm_compute; reflexivity.
  - vm_compute; reflexivity.
  - vm_compute; reflexivity.
  - vm_compute; reflexivity.
  - vm_compute; discriminate.
Defined.

(** C8 fails as stated: an event whose reference URL is not parseable and
    which the predicate filters out makes [SendNotification] return nil;
    annotation is never attempted. *)
Lemma SendNotification_malformed_LogUrl_filtered :
  let w := Scenario.ready Scenario.ok_server Scenario.failure_filter Scenario.bad_build in
  @url_Parse (Scenario.deps Scenario.ok_server) (LogUrl Scenario.bad_build) <> None /\
  (exists e, @AddUTMParams (Scenario.deps Scenario.ok_server)
               (LogUrl Scenario.bad_build) "http" = inr e) /\
  builds w !! 1%positive = Some Scenario.bad_build /\
  (Scenario.notify Scenario.ok_server w).1 = Returned tt.
Proof.
  simpl. split; [vm_compute; discriminate|].
  split; [eexists; vm_compute; reflexivity|].
  split; vm_compute; reflexivity.
Qed.



(** * Further properties of SetUp *)

(** [SetUp] returns nil exactly when the filter compiles, the delivery
    configuration holds a string under [url] and the template parses. It
    then stores the compiled filter, the binding resolver it was given, the
    url as written (it is not parsed here) and the parsed template, and
    leaves the cached view, the builds and the effects alone. *)
Theorem SetUp_returns_nil_iff `{D : Deps}
    ctx cfg httpTemplate sg br (w w' : World) :
  SetUp ctx cfg httpTemplate sg br w = (Returned tt, w') <->
  exists prd url t,
    MakeCELPredicate (Filter (Notification_ (Spec cfg))) = inl prd /\
    Delivery (Notification_ (Spec cfg)) !! "url" = Some (VString url) /\
    template_Parse "http_template" httpTemplate = inl t /\
    w' = with_notifier w
           {| h_filter := Some prd; h_tmpl := Some t; h_url := url;
              h_br := Some br; h_tmplView := h_tmplView (notifier w) |}.
Proof.
  split.
  - intros E. exec_unfold E. unfold delivery_url in E.
    destruct (MakeCELPredicate _) as [prd|e0] eqn:Hp; simpl in E; [|discriminate].
    destruct (Delivery _ !! "url") as [[url| | |]|] eqn:Hu; simpl in E;
      try discriminate.
    destruct (template_Parse _ _) as [t|e0] eqn:Ht; simpl in E; [|discriminate].
    exists prd, url, t. inversion E. auto.
  - intros (prd & url & t & Hp & Hu & Ht & ->).
    destruct (SetUp ctx cfg httpTemplate sg br w) as [r w'] eqn:E.
    exec_unfold E. unfold delivery_url in E.
    rewrite Hp in E; simpl in E. rewrite Hu in E; simpl in E.
    rewrite Ht in E; simpl in E. inversion E. reflexivity.
Qed.

(** The configuration of the scenario. *)
Lemma SetUp_returns_nil_iff_witness :
  Scenario.set_up Scenario.ok_server Scenario.success_filter Scenario.to_hook
    Scenario.succeeded_template ∅
  = (Returned tt,
     with_notifier (Scenario.fresh Scenario.ok_server ∅)
       (mkNotifier (D := Scenario.deps Scenario.ok_server)
          (Some (Scenario.status_is SUCCESS))
          (Some [Scenario.TextNode "Build "; Scenario.FieldNode ["Build"; "Id"];
                 Scenario.TextNode " succeeded"])
          "https://hook.example/notify" (Some (inl ∅)) None)).
Proof.
  apply (proj2 (SetUp_returns_nil_iff (D := Scenario.deps Scenario.ok_server)
                  tt (Scenario.config Scenario.success_filter Scenario.to_hook)
                  Scenario.succeeded_template tt (inl ∅)
                  (Scenario.fresh Scenario.ok_server ∅) _)).
  exists (Scenario.status_is SUCCESS), "https://hook.example/notify",
    [Scenario.TextNode "Build "; Scenario.FieldNode ["Build"; "Id"];
     Scenario.TextNode " succeeded"].
  repeat split; vm_compute; reflexivity.
Defined.

(** When the filter compiles and the delivery configuration has no [url],
    or a [url] that is not a string, [SetUp] returns the configuration
    error whatever the template is: the template is not even parsed. The
    filter and the binding resolver are already replaced by then while the
    url and the template are the old ones, so a notifier that was ready
    stays ready, with a mixed configuration. *)
Theorem SetUp_without_url `{D : Deps}
    ctx cfg httpTemplate sg br (w : World) prd :
  MakeCELPredicate (Filter (Notification_ (Spec cfg))) = inl prd ->
  (forall s, Delivery (Notification_ (Spec cfg)) !! "url" <> Some (VString s)) ->
  SetUp ctx cfg httpTemplate sg br w
  = (Failed (fmt_Errorf "expected delivery config %v to have string field `url`"
               [ADelivery (Delivery (Notification_ (Spec cfg)))]),
     with_notifier w
       {| h_filter := Some prd; h_tmpl := h_tmpl (notifier w);
          h_url := h_url (notifier w); h_br := Some br;
          h_tmplView := h_tmplView (notifier w) |}) /\
  (Ready (notifier w) -> Ready (notifier (SetUp ctx cfg httpTemplate sg br w).2)).
Proof.
  intros Hp Hu.
  assert (E : SetUp ctx cfg httpTemplate sg br w
    = (Failed (fmt_Errorf "expected delivery config %v to have string field `url`"
               [ADelivery (Delivery (Notification_ (Spec cfg)))]),
       with_notifier w
         {| h_filter := Some prd; h_tmpl := h_tmpl (notifier w);
            h_url := h_url (notifier w); h_br := Some br;
            h_tmplView := h_tmplView (notifier w) |})).
  { destruct (SetUp ctx cfg httpTemplate sg br w) as [r w'] eqn:E.
    exec_unfold E. unfold delivery_url in E. rewrite Hp in E; simpl in E.
    destruct (Delivery _ !! "url") as [[url| | |]|] eqn:Hd; simpl in E;
      try (exfalso; exact (Hu _ eq_refl)); inversion E; reflexivity. }
  rewrite E. split; [reflexivity|].
  intros (_ & _ & Ht). simpl. repeat split; eauto.
Qed.

(** A delivery configuration whose [url] is a number, with a template that
    would not parse. *)
Lemma SetUp_without_url_witness :
  (SetUp (D := Scenario.deps Scenario.ok_server) tt
     (Scenario.config Scenario.success_filter Cases.to_port)
     Cases.unclosed_template tt (inl ∅)
     (Scenario.fresh Scenario.ok_server ∅)).1
  = Failed (fmt_Errorf "expected delivery config %v to have string field `url`"
              [ADelivery Cases.to_port]).
Proof.
  refine (f_equal fst
    (proj1 (SetUp_without_url (D := Scenario.deps Scenario.ok_server)
              tt (Scenario.config Scenario.success_filter Cases.to_port)
              Cases.unclosed_template tt (inl ∅)
              (Scenario.fresh Scenario.ok_server ∅)
              (Scenario.status_is SUCCESS) _ _))).
  - vm_compute; reflexivity.
  - intros s. vm_compute. discriminate.
Defined.

(** When the filter compiles and the url is a string, a template that does
    not parse makes [SetUp] return the parse error under its own message;
    the filter, the binding resolver and the url have been stored, the
    template has not. *)
Theorem SetUp_template_does_not_parse `{D : Deps}
    ctx cfg httpTemplate sg br (w : World) prd url e0 :
  MakeCELPredicate (Filter (Notification_ (Spec cfg))) = inl prd ->
  Delivery (Notification_ (Spec cfg)) !! "url" = Some (VString url) ->
  template_Parse "http_template" httpTemplate = inr e0 ->
  SetUp ctx cfg httpTemplate sg br w
  = (Failed (fmt_Errorf "failed to parse template: %v" [AErr e0]),
     with_notifier w
       {| h_filter := Some prd; h_tmpl := h_tmpl (notifier w);
          h_url := url; h_br := Some br;
          h_tmplView := h_tmplView (notifier w) |}).
Proof.
  intros Hp Hu Ht.
  destruct (SetUp ctx cfg httpTemplate sg br w) as [r w'] eqn:E.
  exec_unfold E. unfold delivery_url in E.
  rewrite Hp in E; simpl in E. rewrite Hu in E; simpl in E.
  rewrite Ht in E; simpl in E. inversion E. reflexivity.
Qed.

(** A template with an action that is never closed. *)
Lemma SetUp_template_does_not_parse_witness :
  Scenario.set_up Scenario.ok_server Scenario.success_filter Scenario.to_hook
    Cases.unclosed_template ∅
  = (Failed (fmt_Errorf "failed to parse template: %v"
               [AErr (errors_New "template: http_template: unclosed action")]),
     with_notifier (Scenario.fresh Scenario.ok_server ∅)
       (mkNotifier (D := Scenario.deps Scenario.ok_server)
          (Some (Scenario.status_is SUCCESS)) None
          "https://hook.example/notify" (Some (inl ∅)) None)).
Proof.
  apply (SetUp_template_does_not_parse (D := Scenario.deps Scenario.ok_server)
           tt (Scenario.config Scenario.success_filter Scenario.to_hook)
           Cases.unclosed_template tt (inl ∅)
           (Scenario.fresh Scenario.ok_server ∅));
    vm_compute; reflexivity.
Defined.

(** [SetUp] does no I/O and touches no event: whatever it returns, the
    builds, the effects and the cached view are as before. *)
Theorem SetUp_frame `{D : Deps} ctx cfg httpTemplate sg br (w : World) :
  builds (SetUp ctx cfg httpTemplate sg br w).2 = builds w /\
  effects (SetUp ctx cfg httpTemplate sg br w).2 = effects w /\
  h_tmplView (notifier (SetUp ctx cfg httpTemplate sg br w).2)
    = h_tmplView (notifier w).
Proof.
  destruct (SetUp ctx cfg httpTemplate sg br w) as [r w'] eqn:E.
  exec_unfold E. destruct (delivery_url cfg) as [u ok] eqn:Eu.
  exec_cases E; exec_done E; auto.
Qed.

(** * Further properties of SendNotification *)

(** ** Before and after SetUp *)

(** A notifier whose filter was never set, such as the one [main] creates
    with [new] before [SetUp] has run, panics on every event, at the call
    of the filter on line 68, and nothing has been written by then. *)
Theorem SendNotification_before_SetUp `{D : Deps}
    (ctx : context_Context) (build : loc) (w : World) :
  h_filter (notifier w) = None ->
  SendNotification ctx build w = (Panicked, w).
Proof.
  intros Hf. destruct (SendNotification ctx build w) as [r w'] eqn:E.
  exec_unfold E. rewrite Hf in E. simpl in E. now inversion E.
Qed.

Lemma SendNotification_before_SetUp_witness :
  Scenario.notify Scenario.ok_server
    (Scenario.fresh Scenario.ok_server {[ 1%positive := Scenario.b1 ]})
  = (Panicked, Scenario.fresh Scenario.ok_server {[ 1%positive := Scenario.b1 ]}).
Proof.
  apply (SendNotification_before_SetUp (D := Scenario.deps Scenario.ok_server)).
  reflexivity.
Defined.



(** A notifier whose filter and binding resolver are set but whose
    template is nil, which is what a [SetUp] that failed on the url or on
    the template leaves behind, panics on an event that passes the filter,
    at the execution of the template: by then the cached view and the
    [LogUrl] of the event have been written, and no request was issued. *)
Theorem SendNotification_without_template `{D : Deps}
    (ctx : context_Context) (build : loc) (w : World) flt b r bindings logURL :
  h_filter (notifier w) = Some flt ->
  builds w !! build = Some b ->
  Apply flt ctx b = true ->
  h_br (notifier w) = Some r ->
  Resolve r ctx None b = inl bindings ->
  AddUTMParams (LogUrl b) HTTPMedium = inl logURL ->
  h_tmpl (notifier w) = None ->
  (SendNotification ctx build w).1 = Panicked /\
  builds (SendNotification ctx build w).2 !! build = Some (set_LogUrl b logURL) /\
  h_tmplView (notifier (SendNotification ctx build w).2)
    = Some {| tv_Build := {| bv_Build := build |}; tv_Params := bindings |} /\
  renderings (emitted w (SendNotification ctx build w).2) = [] /\
  requests (emitted w (SendNotification ctx build w).2) = [].
Proof.
  intros Hf Hb Ha Hr Hres Hutm Ht.
  destruct (SendNotification ctx build w) as [res w'] eqn:E.
  exec_unfold E. exec_rew E. exec_done E.
  split; [reflexivity|]. split; [apply lookup_insert_eq|].
  split; [reflexivity|]. emitted_compute. auto.
Qed.

(** The notifier left by a [SetUp] whose template did not parse. *)
Lemma SendNotification_without_template_witness :
  let w := Cases.set_up_with Scenario.ok_server Scenario.success_filter
             Scenario.to_hook Cases.unclosed_template (inl ∅) Scenario.b1 in
  (Scenario.notify Scenario.ok_server w).1 = Panicked /\
  builds (Scenario.notify Scenario.ok_server w).2 !! 1%positive
    = Some (set_LogUrl Scenario.b1 Scenario.annotated) /\
  h_tmplView (notifier (Scenario.notify Scenario.ok_server w).2)
    = Some {| tv_Build := {| bv_Build := 1%positive |}; tv_Params := ∅ |} /\
  renderings (emitted w (Scenario.notify Scenario.ok_server w).2) = [] /\
  requests (emitted w (Scenario.notify Scenario.ok_server w).2) = [].
Proof.
  apply (SendNotification_without_template (D := Scenario.deps Scenario.ok_server)
           tt 1%positive
           (Cases.set_up_with Scenario.ok_server Scenario.success_filter
              Scenario.to_hook Cases.unclosed_template (inl ∅) Scenario.b1)
           (Scenario.status_is SUCCESS) Scenario.b1 (inl ∅) ∅ Scenario.annotated);
    vm_compute; reflexivity.
Defined.

(** ** The failures of the steps *)

(** When the bindings of an event that passes the filter do not resolve,
    [SendNotification] returns the resolver's error, wrapped, and stops
    there: the resolver was called once, with nil additional parameters,
    and nothing else has happened. The URL is not annotated, the template
    is not executed, no request is issued, and the notifier and the event
    are as before. *)
Theorem SendNotification_bindings_fail `{D : Deps}
    (ctx : context_Context) (build : loc) (w : World) flt b r e0 :
  h_filter (notifier w) = Some flt ->
  builds w !! build = Some b ->
  Apply flt ctx b = true ->
  h_br (notifier w) = Some r ->
  Resolve r ctx None b = inr e0 ->
  exists w',
    SendNotification ctx build w
      = (Failed (fmt_Errorf "failed to resolve bindings: %w" [AErr e0]), w') /\
    notifier w' = notifier w /\ builds w' = builds w /\
    emitted w w' =
      [Logged Info "sending HTTP request for event (build id = %s, status = %s)"
         [AStr (Id b); AStatus (Status b)];
       ResolveCalled None b].
Proof.
  intros Hf Hb Ha Hr Hres.
  destruct (SendNotification ctx build w) as [res w'] eqn:E. exists w'.
  exec_unfold E. exec_rew E. exec_done E.
  emitted_compute. destruct w as [h bs es]; simpl. destruct h; auto.
Qed.

Lemma SendNotification_bindings_fail_witness :
  let w := Cases.set_up_with Scenario.ok_server Scenario.success_filter
             Scenario.to_hook Scenario.succeeded_template
             Cases.failing_resolver Scenario.b1 in
  exists w',
    Scenario.notify Scenario.ok_server w
      = (Failed (fmt_Errorf "failed to resolve bindings: %w"
                   [AErr (errors_New "no such binding")]), w') /\
    notifier w' = notifier w /\ builds w' = builds w /\
    emitted w w' =
      [Logged Info "sending HTTP request for event (build id = %s, status = %s)"
         [AStr "b-1"; AStatus SUCCESS];
       ResolveCalled None Scenario.b1].
Proof.
  apply (SendNotification_bindings_fail (D := Scenario.deps Scenario.ok_server)
           tt 1%positive
           (Cases.set_up_with Scenario.ok_server Scenario.success_filter
              Scenario.to_hook Scenario.succeeded_template
              Cases.failing_resolver Scenario.b1)
           (Scenario.status_is SUCCESS) Scenario.b1 Cases.failing_resolver
           (errors_New "no such binding"));
    vm_compute; reflexivity.
Defined.

(** When the template fails to execute, [SendNotification] returns the
    template's error as it is, without a message of its own (the other
    steps wrap theirs). Nothing is encoded and no request is issued; the
    event keeps its annotated [LogUrl]. *)
Theorem SendNotification_template_fails `{D : Deps}
    (ctx : context_Context) (build : loc) (w : World)
    flt b r bindings logURL t e0 :
  h_filter (notifier w) = Some flt ->
  builds w !! build = Some b ->
  Apply flt ctx b = true ->
  h_br (notifier w) = Some r ->
  Resolve r ctx None b = inl bindings ->
  AddUTMParams (LogUrl b) HTTPMedium = inl logURL ->
  h_tmpl (notifier w) = Some t ->
  template_Execute t {| vd_Build := set_LogUrl b logURL; vd_Params := bindings |}
    = inr e0 ->
  (SendNotification ctx build w).1 = Failed e0 /\
  encodings (emitted w (SendNotification ctx build w).2) = [] /\
  requests (emitted w (SendNotification ctx build w).2) = [] /\
  builds (SendNotification ctx build w).2 !! build = Some (set_LogUrl b logURL).
Proof.
  intros Hf Hb Ha Hr Hres Hutm Ht Hex.
  destruct (SendNotification ctx build w) as [res w'] eqn:E.
  exec_unfold E. exec_rew E. exec_done E.
  emitted_compute. repeat split. apply lookup_insert_eq.
Qed.

(** A template that names a field builds do not have. *)
Lemma SendNotification_template_fails_witness :
  let w := Cases.set_up_with Scenario.ok_server Scenario.success_filter
             Scenario.to_hook Cases.unknown_field_template (inl ∅) Scenario.b1 in
  (Scenario.notify Scenario.ok_server w).1
    = Failed (errors_New "template: http_template: can't evaluate field") /\
  encodings (emitted w (Scenario.notify Scenario.ok_server w).2) = [] /\
  requests (emitted w (Scenario.notify Scenario.ok_server w).2) = [] /\
  builds (Scenario.notify Scenario.ok_server w).2 !! 1%positive
    = Some (set_LogUrl Scenario.b1 Scenario.annotated).
Proof.
  apply (SendNotification_template_fails (D := Scenario.deps Scenario.ok_server)
           tt 1%positive
           (Cases.set_up_with Scenario.ok_server Scenario.success_filter
              Scenario.to_hook Cases.unknown_field_template (inl ∅) Scenario.b1)
           (Scenario.status_is SUCCESS) Scenario.b1 (inl ∅) ∅ Scenario.annotated
           [Scenario.TextNode "Build "; Scenario.FieldNode ["Build"; "Nope"]]);
    vm_compute; reflexivity.
Defined.

(** The destination URL is parsed for the first time when a request is
    built, on line 99: a url that [SetUp] stored but that does not parse
    makes every event that gets as far as rendering fail with the request
    creation error, wrapped, after the bindings were resolved, the event
    annotated and the template executed, and without any request handed to
    the client. *)
Theorem SendNotification_bad_destination `{D : Deps}
    (ctx : context_Context) (build : loc) (w : World)
    flt b r bindings logURL t buf payload e0 :
  h_filter (notifier w) = Some flt ->
  builds w !! build = Some b ->
  Apply flt ctx b = true ->
  h_br (notifier w) = Some r ->
  Resolve r ctx None b = inl bindings ->
  AddUTMParams (LogUrl b) HTTPMedium = inl logURL ->
  h_tmpl (notifier w) = Some t ->
  template_Execute t {| vd_Build := set_LogUrl b logURL; vd_Params := bindings |}
    = inl buf ->
  json_Encode_Buffer buf = inl payload ->
  url_Parse (h_url (notifier w)) = Some e0 ->
  (SendNotification ctx build w).1
    = Failed (fmt_Errorf "failed to create a new HTTP request: %w" [AErr e0]) /\
  resolutions (emitted w (SendNotification ctx build w).2) = [b] /\
  renderings (emitted w (SendNotification ctx build w).2)
    = [{| vd_Build := set_LogUrl b logURL; vd_Params := bindings |}] /\
  requests (emitted w (SendNotification ctx build w).2) = [].
Proof.
  intros Hf Hb Ha Hr Hres Hutm Ht Hex Hjs Hurl.
  destruct (SendNotification ctx build w) as [res w'] eqn:E.
  exec_unfold E. exec_rew E. exec_done E.
  emitted_compute. repeat split.
Qed.

(** A configuration whose url has no scheme: [SetUp] accepts it and the
    event fails. *)
Lemma SendNotification_bad_destination_witness :
  let w := Cases.set_up_with Scenario.ok_server Scenario.success_filter
             Cases.to_bad_hook Scenario.succeeded_template (inl ∅) Scenario.b1 in
  Ready (notifier w) /\
  (Scenario.notify Scenario.ok_server w).1
    = Failed (fmt_Errorf "failed to create a new HTTP request: %w"
                [AErr (errors_New "missing protocol scheme")]) /\
  resolutions (emitted w (Scenario.notify Scenario.ok_server w).2) = [Scenario.b1] /\
  renderings (emitted w (Scenario.notify Scenario.ok_server w).2)
    = [{| vd_Build := set_LogUrl Scenario.b1 Scenario.annotated; vd_Params := ∅ |}] /\
  requests (emitted w (Scenario.notify Scenario.ok_server w).2) = [].
Proof.
  split; [repeat split; vm_compute; eauto|].
  apply (SendNotification_bad_destination (D := Scenario.deps Scenario.ok_server)
           tt 1%positive
           (Cases.set_up_with Scenario.ok_server Scenario.success_filter
              Cases.to_bad_hook Scenario.succeeded_template (inl ∅) Scenario.b1)
           (Scenario.status_is SUCCESS) Scenario.b1 (inl ∅) ∅ Scenario.annotated
           [Scenario.TextNode "Build "; Scenario.FieldNode ["Build"; "Id"];
            Scenario.TextNode " succeeded"]
           "Build b-1 succeeded"
           ("{}" +:+ String (ascii_of_N 10) EmptyString));
    vm_compute; reflexivity.
Defined.

(** ** Delivery, in every run *)

(** Whatever the run, every request it hands to the client is a POST to
    the configured URL that carries the two headers of the notifier and no
    other: no credentials are added. This holds too when the transport
    then fails. *)
Theorem SendNotification_request_shape `{D : Deps}
    (ctx : context_Context) (build : loc) (w : World) req :
  req ∈ requests (emitted w (SendNotification ctx build w).2) ->
  Method req = "POST" /\
  URL req = h_url (notifier w) /\
  Header req = notification_headers /\
  Header req !! "Authorization" = None.
Proof.
  destruct (SendNotification ctx build w) as [res w'] eqn:E.
  exec_unfold E. exec_cases E; exec_done E.
  all: emitted_compute; intros Hin.
  all: try (apply elem_of_nil in Hin; contradiction).
  all: apply list_elem_of_singleton in Hin; subst req; simpl.
  all: repeat split; rewrite !lookup_insert_ne by discriminate; apply lookup_empty.
Qed.

(** A destination that cannot be reached still gets a well-formed
    request. *)
Lemma SendNotification_request_shape_witness :
  let req := notification_request "https://hook.example/notify" "Build b-1 succeeded" in
  Method req = "POST" /\
  URL req = "https://hook.example/notify" /\
  Header req = notification_headers /\
  Header req !! "Authorization" = None.
Proof.
  apply (SendNotification_request_shape (D := Scenario.deps Scenario.no_server)
           tt 1%positive
           (Scenario.ready Scenario.no_server Scenario.success_filter Scenario.b1)
           (notification_request "https://hook.example/notify" "Build b-1 succeeded")).
  vm_compute. apply list_elem_of_here.
Defined.

(** The body of a response is closed once for each response the client
    gave, in every run: once when the request was answered, never when the
    transport failed or no request was issued. *)
Theorem SendNotification_closes_responses `{D : Deps}
    (ctx : context_Context) (build : loc) (w : World) :
  closes (emitted w (SendNotification ctx build w).2)
  = length (responses ctx (requests (emitted w (SendNotification ctx build w).2))).
Proof.
  destruct (SendNotification ctx build w) as [res w'] eqn:E.
  exec_unfold E. exec_cases E; exec_done E.
  all: emitted_compute; unfold closes, responses; simpl.
  all: repeat match goal with
       | H : http_Do _ _ = _ |- _ => rewrite H
       end.
  all: reflexivity.
Qed.

(** The warning of line 112 is logged exactly when the status code of the
    response is not 200, so also for the other codes of the 2xx class; it
    reports the status line, the code and the destination. The run returns
    nil in both cases. *)
Theorem SendNotification_warns_unless_200 `{D : Deps}
    (ctx : context_Context) (build : loc) (w : World)
    flt b r bindings logURL t buf payload resp :
  h_filter (notifier w) = Some flt ->
  builds w !! build = Some b ->
  Apply flt ctx b = true ->
  h_br (notifier w) = Some r ->
  Resolve r ctx None b = inl bindings ->
  AddUTMParams (LogUrl b) HTTPMedium = inl logURL ->
  h_tmpl (notifier w) = Some t ->
  template_Execute t {| vd_Build := set_LogUrl b logURL; vd_Params := bindings |}
    = inl buf ->
  json_Encode_Buffer buf = inl payload ->
  url_Parse (h_url (notifier w)) = None ->
  http_Do ctx (notification_request (h_url (notifier w)) buf) = inl resp ->
  (SendNotification ctx build w).1 = Returned tt /\
  warnings (emitted w (SendNotification ctx build w).2)
  = if decide (StatusCode resp = 200%Z) then []
    else [[AStr (resp_Status resp); AInt (StatusCode resp);
           AStr (h_url (notifier w))]].
Proof.
  intros Hf Hb Ha Hr Hres Hutm Ht Hex Hjs Hurl Hdo.
  destruct (SendNotification ctx build w) as [res w'] eqn:E.
  exec_unfold E. exec_rew E.
  fold (notification_request (h_url (notifier w)) buf) in E. exec_rew E.
  unfold http_StatusOK in E.
  destruct (Z.eqb_spec (StatusCode resp) 200) as [Heq|Hne]; simpl in E; exec_done E.
  all: split; [reflexivity|]; emitted_compute.
  all: destruct (decide (StatusCode resp = 200%Z)); congruence.
Qed.

(** A destination that answers 204 No Content. *)
Lemma SendNotification_warns_unless_200_witness :
  let w := Scenario.ready Cases.no_content_server Scenario.success_filter Scenario.b1 in
  (Scenario.notify Cases.no_content_server w).1 = Returned tt /\
  warnings (emitted w (Scenario.notify Cases.no_content_server w).2)
  = [[AStr "204 No Content"; AInt 204; AStr "https://hook.example/notify"]].
Proof.
  apply (SendNotification_warns_unless_200 (D := Scenario.deps Cases.no_content_server)
           tt 1%positive
           (Scenario.ready Cases.no_content_server Scenario.success_filter Scenario.b1)
           (Scenario.status_is SUCCESS) Scenario.b1 (inl ∅) ∅ Scenario.annotated
           [Scenario.TextNode "Build "; Scenario.FieldNode ["Build"; "Id"];
            Scenario.TextNode " succeeded"]
           "Build b-1 succeeded"
           ("{}" +:+ String (ascii_of_N 10) EmptyString)
           {| resp_Status := "204 No Content"; StatusCode := 204 |});
    vm_compute; reflexivity.
Defined.

(** ** The event seen by the collaborators *)

(** The view is assembled before the URL is annotated but holds a pointer
    to the event, so the template is executed on the event with its
    annotated [LogUrl] and the resolved bindings, while the binding
    resolver saw the event as it was received. Each is called once, and the
    annotation once, on the received [LogUrl]. *)
Theorem SendNotification_renders_annotated `{D : Deps}
    (ctx : context_Context) (build : loc) (w : World)
    flt b r bindings logURL t :
  h_filter (notifier w) = Some flt ->
  builds w !! build = Some b ->
  Apply flt ctx b = true ->
  h_br (notifier w) = Some r ->
  Resolve r ctx None b = inl bindings ->
  AddUTMParams (LogUrl b) HTTPMedium = inl logURL ->
  h_tmpl (notifier w) = Some t ->
  resolutions (emitted w (SendNotification ctx build w).2) = [b] /\
  annotations (emitted w (SendNotification ctx build w).2) = [LogUrl b] /\
  renderings (emitted w (SendNotification ctx build w).2)
    = [{| vd_Build := set_LogUrl b logURL; vd_Params := bindings |}].
Proof.
  intros Hf Hb Ha Hr Hres Hutm Ht.
  destruct (SendNotification ctx build w) as [res w'] eqn:E.
  exec_unfold E. exec_rew E. exec_cases E; exec_done E.
  all: emitted_compute; auto.
Qed.

Lemma SendNotification_renders_annotated_witness :
  let w := Scenario.ready Scenario.ok_server Scenario.success_filter Scenario.b1 in
  resolutions (emitted w (Scenario.notify Scenario.ok_server w).2) = [Scenario.b1] /\
  annotations (emitted w (Scenario.notify Scenario.ok_server w).2) = ["https://x/log"] /\
  renderings (emitted w (Scenario.notify Scenario.ok_server w).2)
    = [{| vd_Build := set_LogUrl Scenario.b1 Scenario.annotated; vd_Params := ∅ |}].
Proof.
  apply (SendNotification_renders_annotated (D := Scenario.deps Scenario.ok_server)
           tt 1%positive
           (Scenario.ready Scenario.ok_server Scenario.success_filter Scenario.b1)
           (Scenario.status_is SUCCESS) Scenario.b1 (inl ∅) ∅ Scenario.annotated
           [Scenario.TextNode "Build "; Scenario.FieldNode ["Build"; "Id"];
            Scenario.TextNode " succeeded"]);
    vm_compute; reflexivity.
Defined.

(** Handling the same event a second time annotates it a second time: the
    first run leaves the annotated URL in the caller's event, and the
    second run hands that URL to [AddUTMParams] and stores what comes
    back. *)
Theorem SendNotification_twice `{D : Deps}
    (ctx : context_Context) (build : loc) (w : World)
    flt b r bindings bindings' logURL logURL' :
  h_filter (notifier w) = Some flt ->
  builds w !! build = Some b ->
  Apply flt ctx b = true ->
  h_br (notifier w) = Some r ->
  Resolve r ctx None b = inl bindings ->
  AddUTMParams (LogUrl b) HTTPMedium = inl logURL ->
  Apply flt ctx (set_LogUrl b logURL) = true ->
  Resolve r ctx None (set_LogUrl b logURL) = inl bindings' ->
  AddUTMParams logURL HTTPMedium = inl logURL' ->
  let w1 := (SendNotification ctx build w).2 in
  let w2 := (SendNotification ctx build w1).2 in
  annotations (emitted w1 w2) = [logURL] /\
  builds w2 !! build = Some (set_LogUrl b logURL').
Proof.
  intros Hf Hb Ha Hr Hres Hutm Ha' Hres' Hutm'. simpl.
  assert (H1 : h_filter (notifier (SendNotification ctx build w).2) = Some flt /\
               h_br (notifier (SendNotification ctx build w).2) = Some r /\
               builds (SendNotification ctx build w).2 !! build
                 = Some (set_LogUrl b logURL)).
  { destruct (SendNotification ctx build w) as [res w'] eqn:E.
    exec_unfold E. exec_rew E. exec_cases E; exec_done E.
    all: repeat split; auto; apply lookup_insert_eq. }
  destruct H1 as (Hf1 & Hr1 & Hb1).
  set (w1 := (SendNotification ctx build w).2) in *. clearbody w1.
  destruct (SendNotification ctx build w1) as [res w2] eqn:E.
  exec_unfold E. exec_rew E. exec_cases E; exec_done E.
  all: emitted_compute; split; [reflexivity | apply lookup_insert_eq].
Qed.

(** The event of the scenario, handled twice: the tracking parameters are
    there twice. *)
Lemma SendNotification_twice_witness :
  let w := Scenario.ready Scenario.ok_server Scenario.success_filter Scenario.b1 in
  let w1 := (Scenario.notify Scenario.ok_server w).2 in
  let w2 := (Scenario.notify Scenario.ok_server w1).2 in
  annotations (emitted w1 w2) = [Scenario.annotated] /\
  builds w2 !! 1%positive
  = Some (set_LogUrl Scenario.b1
            (Scenario.annotated +:+
             "&utm_campaign=google-cloud-build-notifiers&utm_medium=http&utm_source=google-cloud-build")).
Proof.
  apply (SendNotification_twice (D := Scenario.deps Scenario.ok_server)
           tt 1%positive
           (Scenario.ready Scenario.ok_server Scenario.success_filter Scenario.b1)
           (Scenario.status_is SUCCESS) Scenario.b1 (inl ∅) ∅ ∅ Scenario.annotated);
    vm_compute; reflexivity.
Defined.

(** ** The errors of SendNotification *)


